(** * export_model.py: the FastSAM to ONNX export driver

    A shallow embedding of
    [prototypes/fastsam-onnx-test/models/export_model.py].

    The script is straight-line Python with one branch.  Everything it does
    is an effect: it changes the working directory, imports [ultralytics],
    asks the filesystem whether the checkpoint is there, prints, builds a
    [YOLO] object and calls its [export] method.  None of these is written
    in the repository, so they are the fields of an interface ([Env]) and
    the script is a computation in a state-and-exception monad over it.
    Every effect is logged, with its answer, in the order it happens; the
    properties are statements about that log. *)

From Stdlib Require Import String Ascii List ZArith Bool.
Import ListNotations.
Open Scope string_scope.

(** ** Constants of the script *)

(** The literal handed to [os.chdir] on line 3. *)
Definition models_dir : string :=
  "/Users/jason/Desktop/Work/StraboMicro2/prototypes/fastsam-onnx-test/models".

(** [model_path], line 9. *)
Definition model_path : string :=
  "/Users/jason/Desktop/Work/StraboMicro2/prototypes/fastsam-onnx-test/models/FastSAM-x.pt".

(** The literal handed to [YOLO] on the download branch, line 14. *)
Definition model_name : string := "FastSAM-x.pt".

(** The keyword arguments of [model.export], lines 23-29.  Python's [int]
    is unbounded, hence [Z]. *)
Record ExportConfig : Type := mkExportConfig {
  format : string;
  imgsz : Z;
  opset : Z;
  simplify : bool;
  dynamic : bool
}.

Definition export_kwargs : ExportConfig :=
  {| format := "onnx"; imgsz := 1024; opset := 17;
     simplify := false; dynamic := false |}.

(** [os.path.join cwd p] for POSIX paths: how a name is resolved against
    the working directory. *)
Definition is_abs (p : string) : bool :=
  match p with
  | String c _ => Ascii.eqb c "/"
  | EmptyString => false
  end.

Definition resolve (cwd p : string) : string :=
  if is_abs p then p else cwd ++ "/" ++ p.

(** ** What the script calls but does not define *)

(** Every capability sees the working directory of the process and the
    outside world (disk, network, the library's own state), may change the
    world, and either returns or raises.  [os.path.exists] only reads and
    never raises on a [str].  The working directory itself is changed by
    [os.chdir] alone.  [print] and the two conversions inside the f-strings
    are taken to return. *)
Class Env : Type := {
  World : Type;
  Model : Type;        (* what [YOLO(...)] returns *)
  Result : Type;       (* what [model.export(...)] returns *)
  Exn : Type;          (* Python exceptions *)
  ext_chdir : string -> string -> World -> World * (Exn + unit);
  ext_import : string -> World -> World * (Exn + unit);
  ext_exists : string -> string -> World -> bool;
  ext_YOLO : string -> string -> World -> World * (Exn + Model);
  ext_export : Model -> ExportConfig -> string -> World -> World * (Exn + Result);
  type_repr : Model -> string;     (* [str(type(model))] in the f-string *)
  result_repr : Result -> string   (* [str(result)] in the f-string *)
}.

Section Driver.

Context {E : Env}.

(** ** Log of effects *)

Inductive Event : Type :=
| EvChdir (d : string) (r : Exn + unit)
| EvImport (r : Exn + unit)
| EvExists (p : string) (r : bool)
| EvPrint (line : string)
| EvLoad (arg : string) (r : Exn + Model)
| EvExport (m : Model) (cfg : ExportConfig) (r : Exn + Result).

(** An effect together with the working directory it happened in. *)
Record Entry : Type := stamp { at_cwd : string; what : Event }.

Record Proc : Type := mkProc {
  cwd : string;
  world : World;
  log : list Entry
}.

(** ** The monad: state, and exceptions that nothing catches *)

Definition Script (A : Type) : Type := Proc -> Proc * (Exn + A).

Definition ret {A} (a : A) : Script A := fun s => (s, inr a).

Definition bind {A B} (m : Script A) (k : A -> Script B) : Script B :=
  fun s =>
    match m s with
    | (s', inr a) => k a s'
    | (s', inl e) => (s', inl e)
    end.

Notation "x <- m ;; k" := (bind m (fun x => k))
  (at level 61, m at next level, right associativity).
Notation "m ;; k" := (bind m (fun _ => k))
  (at level 61, right associativity).

(** Call a capability in the current directory and world, log the call
    with its answer, and return or raise as it did. *)
Definition call {A} (f : string -> World -> World * (Exn + A))
    (ev : Exn + A -> Event) : Script A :=
  fun s =>
    let (w', r) := f (cwd s) (world s) in
    ({| cwd := cwd s; world := w'; log := log s ++ [stamp (cwd s) (ev r)] |}, r).

Definition set_cwd (d : string) : Script unit :=
  fun s => ({| cwd := resolve (cwd s) d; world := world s; log := log s |}, inr tt).

(** ** The statements of the script *)

Definition os_chdir (d : string) : Script unit :=
  call (ext_chdir d) (EvChdir d) ;; set_cwd d.

Definition import_YOLO : Script unit :=
  call ext_import EvImport.

Definition os_path_exists (p : string) : Script bool :=
  fun s =>
    let b := ext_exists p (cwd s) (world s) in
    ({| cwd := cwd s; world := world s;
        log := log s ++ [stamp (cwd s) (EvExists p b)] |}, inr b).

Definition print (line : string) : Script unit :=
  fun s =>
    ({| cwd := cwd s; world := world s;
        log := log s ++ [stamp (cwd s) (EvPrint line)] |}, inr tt).

Definition YOLO (arg : string) : Script Model :=
  call (ext_YOLO arg) (EvLoad arg).

Definition export (m : Model) (cfg : ExportConfig) : Script Result :=
  call (ext_export m cfg) (EvExport m cfg).

(** ** The script, statement by statement *)

Definition script : Script unit :=
  os_chdir models_dir ;;
  import_YOLO ;;
  found <- os_path_exists model_path ;;
  model <- (if negb found then
              print ("Model not found at " ++ model_path) ;;
              print "Downloading FastSAM-x.pt..." ;;
              YOLO "FastSAM-x.pt"
            else
              print ("Loading model from: " ++ model_path) ;;
              YOLO model_path) ;;
  print ("Loaded model: " ++ type_repr model) ;;
  result <- export model {| format := "onnx"; imgsz := 1024; opset := 17;
                            simplify := false; dynamic := false |} ;;
  print ("Export complete! Result: " ++ result_repr result).

(** One run: a fresh process launched in directory [launch], in world [w]. *)
Definition run_script (launch : string) (w : World) : Proc * (Exn + unit) :=
  script {| cwd := launch; world := w; log := [] |}.

Definition trace (launch : string) (w : World) : list Event :=
  map what (log (fst (run_script launch w))).

Definition outcome (launch : string) (w : World) : Exn + unit :=
  snd (run_script launch w).

Definition world_after (launch : string) (w : World) : World :=
  world (fst (run_script launch w)).

(** ** Reading a log *)

(** What went to standard output, in order. *)
Fixpoint stdout (t : list Event) : list string :=
  match t with
  | [] => []
  | EvPrint line :: t' => line :: stdout t'
  | _ :: t' => stdout t'
  end.

(** The argument of every [YOLO(...)] call, in order. *)
Fixpoint load_args (t : list Event) : list string :=
  match t with
  | [] => []
  | EvLoad arg _ :: t' => arg :: load_args t'
  | _ :: t' => load_args t'
  end.

(** Every [model.export(...)] call: receiver and keyword arguments. *)
Fixpoint export_calls (t : list Event) : list (Model * ExportConfig) :=
  match t with
  | [] => []
  | EvExport m cfg _ :: t' => (m, cfg) :: export_calls t'
  | _ :: t' => export_calls t'
  end.

(** The exception an effect ended in, if it raised. *)
Definition raised (ev : Event) : option Exn :=
  match ev with
  | EvChdir _ (inl e) | EvImport (inl e) | EvLoad _ (inl e)
  | EvExport _ _ (inl e) => Some e
  | _ => None
  end.

Definition is_chdir (ev : Event) : bool :=
  match ev with EvChdir _ _ => true | _ => false end.

(** What the script can tell from the library's answers: the printed type
    of a handle, the printed export result, or the exception. *)
Definition shown {A} (f : A -> string) (r : Exn + A) : Exn + string :=
  match r with inl e => inl e | inr a => inr (f a) end.

Fixpoint answers (t : list Event) : list (Exn + string) :=
  match t with
  | [] => []
  | EvLoad _ r :: t' => shown type_repr r :: answers t'
  | EvExport _ _ r :: t' => shown result_repr r :: answers t'
  | _ :: t' => answers t'
  end.

(** The completion line, recognised by its fixed text. *)
Definition is_report (line : string) : bool :=
  String.prefix "Export complete! Result: " line.

(** The calls of a log, prints left out, by what was called. *)
Inductive Kind : Type := KChdir | KImport | KExists | KLoad | KExport.

Fixpoint calls (t : list Event) : list Kind :=
  match t with
  | [] => []
  | EvChdir _ _ :: t' => KChdir :: calls t'
  | EvImport _ :: t' => KImport :: calls t'
  | EvExists _ _ :: t' => KExists :: calls t'
  | EvPrint _ :: t' => calls t'
  | EvLoad _ _ :: t' => KLoad :: calls t'
  | EvExport _ _ _ :: t' => KExport :: calls t'
  end.

(** ** The five ways a run can go *)

Definition prelude : list Event :=
  [EvChdir models_dir (inr tt); EvImport (inr tt)].

Definition announce (found : bool) : list Event :=
  EvExists model_path found ::
  (if found
   then [EvPrint ("Loading model from: " ++ model_path)]
   else [EvPrint ("Model not found at " ++ model_path);
         EvPrint "Downloading FastSAM-x.pt..."]).

Definition load_arg (found : bool) : string :=
  if found then model_path else model_name.

(** After the existence check: the load raises, the export raises, or the
    run gets to its last line. *)
Inductive Finish (found : bool) : list Event -> Exn + unit -> Prop :=
| load_raises e :
    Finish found [EvLoad (load_arg found) (inl e)] (inl e)
| export_raises m e :
    Finish found
      [EvLoad (load_arg found) (inr m);
       EvPrint ("Loaded model: " ++ type_repr m);
       EvExport m export_kwargs (inl e)]
      (inl e)
| completes m r :
    Finish found
      [EvLoad (load_arg found) (inr m);
       EvPrint ("Loaded model: " ++ type_repr m);
       EvExport m export_kwargs (inr r);
       EvPrint ("Export complete! Result: " ++ result_repr r)]
      (inr tt).

Inductive Run : list Event -> Exn + unit -> Prop :=
| run_chdir_raises e :
    Run [EvChdir models_dir (inl e)] (inl e)
| run_import_raises e :
    Run [EvChdir models_dir (inr tt); EvImport (inl e)] (inl e)
| run_checked found rest o :
    Finish found rest o ->
    Run (prelude ++ announce found ++ rest) o.

End Driver.

Arguments Event : clear implicits.
Arguments Entry : clear implicits.
Arguments Proc : clear implicits.

(** ** What the library does with the disk

    The script writes no file itself; the checkpoint and the exported file
    are written by [YOLO] and [model.export].  [WritesInCwd has_file
    artifact] says that they write under names read in the working
    directory they are called in: once [YOLO(name)] has returned, the
    checkpoint is on disk under [name]; once [model.export] has returned,
    the exported file is on disk under [artifact model], and no file that
    was there is gone. *)
Record WritesInCwd {E : Env} (has_file : World -> string -> bool)
    (artifact : Model -> string) : Prop := {
  download_lands : forall name cwd w w' m,
    ext_YOLO name cwd w = (w', inr m) ->
    has_file w' (resolve cwd name) = true;
  export_lands : forall m cfg cwd w w' r,
    ext_export m cfg cwd w = (w', inr r) ->
    has_file w' (resolve cwd (artifact m)) = true;
  export_keeps : forall m cfg cwd w w' r p,
    ext_export m cfg cwd w = (w', inr r) ->
    has_file w p = true ->
    has_file w' p = true
}.

(** ** A small world to run the script in

    A disk with directories and files, a network that is up or down, and a
    library that downloads a missing checkpoint into the working directory
    and writes the exported file next to it. *)

Record Disk : Type := mkDisk {
  dirs : list string;
  files : list string;
  online : bool;
  writable : bool
}.

Definition mem (p : string) (l : list string) : bool :=
  existsb (String.eqb p) l.

Definition add_file (p : string) (d : Disk) : Disk :=
  {| dirs := dirs d; files := p :: files d;
     online := online d; writable := writable d |}.

Definition yolo_class : string := "<class 'ultralytics.models.yolo.model.YOLO'>".

Definition disk_env : Env := {|
  World := Disk;
  Model := string;
  Result := string;
  Exn := string;
  ext_chdir := fun d cwd w =>
    if mem (resolve cwd d) (dirs w) then (w, inr tt)
    else (w, inl "FileNotFoundError");
  ext_import := fun _ w => (w, inr tt);
  ext_exists := fun p cwd w =>
    mem (resolve cwd p) (files w) || mem (resolve cwd p) (dirs w);
  ext_YOLO := fun arg cwd w =>
    let p := resolve cwd arg in
    if mem p (files w) then (w, inr p)
    else if online w then (add_file p w, inr p)
    else (w, inl "ConnectionError");
  ext_export := fun m cfg cwd w =>
    if writable w
    then (add_file (resolve cwd "FastSAM-x.onnx") w, inr "FastSAM-x.onnx")
    else (w, inl "PermissionError");
  type_repr := fun _ => yolo_class;
  result_repr := fun r => r
|}.

(** The files of a disk, and the name under which [disk_env] exports. *)
Definition on_disk (w : Disk) (p : string) : bool := mem p (files w).

Definition onnx_name (m : string) : string := "FastSAM-x.onnx".

(** Jason's machine with the checkpoint already in place; the same before
    the download; the same without a network; with a read-only disk; and
    another machine, where the directory does not exist. *)
Definition disk_ready : Disk :=
  {| dirs := [models_dir]; files := [model_path];
     online := true; writable := true |}.

Definition disk_fresh : Disk :=
  {| dirs := [models_dir]; files := []; online := true; writable := true |}.

Definition disk_offline : Disk :=
  {| dirs := [models_dir]; files := []; online := false; writable := true |}.

Definition disk_readonly : Disk :=
  {| dirs := [models_dir]; files := [model_path];
     online := true; writable := false |}.

Definition disk_elsewhere : Disk :=
  {| dirs := ["/home/ci"]; files := []; online := true; writable := true |}.

(** * Properties *)

Section Properties.

Context {E : Env}.

(** ** Every run has one of the five shapes *)

Ltac unfold_run :=
  unfold trace, outcome, world_after, run_script, script, os_chdir,
    import_YOLO, os_path_exists, YOLO, export, print, set_cwd, call, bind;
  cbn [cwd world log].

Ltac ask f :=
  match goal with
  | |- context [f ?a ?b ?c ?d] => destruct (f a b c d) as [? [?|?]]
  | |- context [f ?a ?b ?c] => destruct (f a b c) as [? [?|?]]
  | |- context [f ?a ?b] => destruct (f a b) as [? [?|?]]
  end; cbn [cwd world log fst snd app map what].

Lemma script_runs (launch : string) (w : World) :
  Run (trace launch w) (outcome launch w).
Proof.
  unfold_run.
  ask ext_chdir; [apply run_chdir_raises|].
  destruct u.
  ask ext_import; [apply run_import_raises|].
  destruct u.
  match goal with
  | |- context [ext_exists ?p ?c ?x] => destruct (ext_exists p c x)
  end; cbn [negb cwd world log fst snd app map what].
  - ask ext_YOLO; [exact (run_checked true _ _ (load_raises true _))|].
    ask ext_export.
    + exact (run_checked true _ _ (export_raises true _ _)).
    + exact (run_checked true _ _ (completes true _ _)).
  - ask ext_YOLO; [exact (run_checked false _ _ (load_raises false _))|].
    ask ext_export.
    + exact (run_checked false _ _ (export_raises false _ _)).
    + exact (run_checked false _ _ (completes false _ _)).
Qed.

(** Split a membership in a concrete log into its cases; the impossible
    ones go away. *)
Ltac in_cases H :=
  unfold prelude, announce, load_arg in H; cbn [In app] in H;
  repeat match type of H with
         | _ \/ _ => destruct H as [H|H]
         | False => contradiction
         end;
  try discriminate H.

(** Case analysis on the shape of a run; what is known about the run must
    be in the goal. *)
Ltac by_shape launch w :=
  let found := fresh "found" in
  let F := fresh "F" in
  destruct (script_runs launch w) as [?e|?e|found ?rest ?o F];
  [ | | destruct found; destruct F ].

(** ** The projections follow concatenation *)

Lemma stdout_app (t1 t2 : list (Event E)) :
  stdout (t1 ++ t2) = (stdout t1 ++ stdout t2)%list.
Proof.
  induction t1 as [|ev t1 IH]; [reflexivity|].
  destruct ev; cbn [app stdout]; rewrite IH; reflexivity.
Qed.

Lemma load_args_app (t1 t2 : list (Event E)) :
  load_args (t1 ++ t2) = (load_args t1 ++ load_args t2)%list.
Proof.
  induction t1 as [|ev t1 IH]; [reflexivity|].
  destruct ev; cbn [app load_args]; rewrite IH; reflexivity.
Qed.

Lemma export_calls_app (t1 t2 : list (Event E)) :
  export_calls (t1 ++ t2) = (export_calls t1 ++ export_calls t2)%list.
Proof.
  induction t1 as [|ev t1 IH]; [reflexivity|].
  destruct ev; cbn [app export_calls]; rewrite IH; reflexivity.
Qed.

Lemma load_args_in (t : list (Event E)) (a : string) (r : Exn + Model) :
  In (EvLoad a r) t -> In a (load_args t).
Proof.
  induction t as [|ev t IH]; [contradiction|].
  intros [->|H]; [left; reflexivity|].
  destruct ev; cbn [load_args]; auto using in_cons.
Qed.

(** ** Recognising the completion line *)

Lemma prefix_append (s t : string) : String.prefix s (s ++ t) = true.
Proof.
  induction s as [|a s IH]; cbn [String.prefix append].
  - destruct t; reflexivity.
  - destruct (ascii_dec a a) as [_|N]; [exact IH|congruence].
Qed.

Lemma is_report_complete (res : string) :
  is_report ("Export complete! Result: " ++ res) = true.
Proof. apply prefix_append. Qed.

Lemma is_report_head (c : ascii) (s : string) :
  c <> "E"%char -> is_report (String c s) = false.
Proof.
  intro N. unfold is_report. cbn [String.prefix].
  destruct (ascii_dec "E" c) as [<-|_]; [congruence|reflexivity].
Qed.

Ltac not_report :=
  cbn [append]; apply is_report_head; discriminate.

Lemma is_report_loaded (ty : string) : is_report ("Loaded model: " ++ ty) = false.
Proof. not_report. Qed.

Lemma is_report_loading (p : string) :
  is_report ("Loading model from: " ++ p) = false.
Proof. not_report. Qed.

Lemma is_report_not_found (p : string) :
  is_report ("Model not found at " ++ p) = false.
Proof. not_report. Qed.

Lemma is_report_downloading : is_report "Downloading FastSAM-x.pt..." = false.
Proof. not_report. Qed.

(** ** The existence check decides the rest *)

Lemma checked_runs (launch : string) (w : World) (b : bool) :
  In (EvExists model_path b) (trace launch w) ->
  exists rest,
    trace launch w = (prelude ++ announce b ++ rest)%list /\
    Finish b rest (outcome launch w).
Proof.
  destruct (script_runs launch w) as [e|e|found rest o F]; intro H.
  - in_cases H.
  - in_cases H.
  - assert (found = b) as <-; [|eauto].
    destruct found, b; trivial; exfalso; destruct F; in_cases H.
Qed.

(** The check is reached as soon as [os.chdir] and the import return, and
    it reports what the filesystem says about [model_path], seen from the
    models directory. *)
Lemma reaches_check (launch : string) (w w1 w2 : World) :
  ext_chdir models_dir launch w = (w1, inr tt) ->
  ext_import models_dir w1 = (w2, inr tt) ->
  In (EvExists model_path (ext_exists model_path models_dir w2))
     (trace launch w).
Proof.
  intros Hc Hi. unfold_run. rewrite Hc. cbn [cwd world log].
  change (resolve launch models_dir) with models_dir.
  rewrite Hi. cbn [cwd world log app].
  destruct (ext_exists model_path models_dir w2); cbn [negb];
    repeat ask ext_YOLO; repeat ask ext_export;
    cbn [map what fst log app In]; auto.
Qed.

(** ** The claims *)




(** C4. When the check finds the checkpoint file and the load returns a
    handle, the export call is made, and what has been printed by then is
    exactly ['Loading model from: <path>'] followed by
    ['Loaded model: <type of the handle>']. *)
Theorem present_diagnostics (launch : string) (w : World)
    (a : string) (h : Model) :
  In (EvExists model_path true) (trace launch w) ->
  In (EvLoad a (inr h)) (trace launch w) ->
  exists pre r post,
    trace launch w = (pre ++ EvExport h export_kwargs r :: post)%list /\
    export_calls pre = [] /\
    stdout pre = ["Loading model from: " ++ model_path;
                  "Loaded model: " ++ type_repr h].
Proof.
  intros H L. apply checked_runs in H as (rest & Ht & F).
  rewrite Ht in L |- *. clear Ht.
  destruct F as [e|m e|m r]; in_cases L; injection L as _ ->.
  - exists (prelude ++ announce true ++
            [EvLoad model_path (inr h);
             EvPrint ("Loaded model: " ++ type_repr h)])%list,
           (inl e), [].
    repeat split.
  - exists (prelude ++ announce true ++
            [EvLoad model_path (inr h);
             EvPrint ("Loaded model: " ++ type_repr h)])%list,
           (inr r), [EvPrint ("Export complete! Result: " ++ result_repr r)].
    repeat split.
Qed.

(** C5. When the check does not find the checkpoint file, the run gets to
    the load call [YOLO('FastSAM-x.pt')] having printed exactly
    ['Model not found at <path>'] and ['Downloading FastSAM-x.pt...'], and
    if the load returns a handle the next thing that happens is the print
    of ['Loaded model: <type of the handle>']. *)
Theorem absent_diagnostics (launch : string) (w : World) :
  In (EvExists model_path false) (trace launch w) ->
  exists pre r post,
    trace launch w = (pre ++ EvLoad "FastSAM-x.pt" r :: post)%list /\
    load_args pre = [] /\
    stdout pre = ["Model not found at " ++ model_path;
                  "Downloading FastSAM-x.pt..."] /\
    forall h, r = inr h ->
      exists post',
        post = EvPrint ("Loaded model: " ++ type_repr h) :: post'.
Proof.
  intro H. apply checked_runs in H as (rest & -> & F).
  exists (prelude ++ announce false)%list.
  destruct F as [e|m e|m r];
    [exists (inl e), [] | exists (inr m); eexists ..];
    (split; [reflexivity|]); (split; [reflexivity|]);
    (split; [reflexivity|]); intros h Hh;
    [discriminate Hh | injection Hh as -> ..]; eexists; reflexivity.
Qed.

(** C6. Once a load has returned a handle, on either branch, [model.export]
    is called exactly once, on that handle.  The line
    ['Export complete! Result: <result>'] is printed exactly once, with the
    result that call returned; when the call raises there is no result and
    no such line.  Nothing is loaded twice either. *)
Theorem one_export_one_report (launch : string) (w : World)
    (a : string) (h : Model) :
  In (EvLoad a (inr h)) (trace launch w) ->
  exists r,
    In (EvExport h export_kwargs r) (trace launch w) /\
    export_calls (trace launch w) = [(h, export_kwargs)] /\
    load_args (trace launch w) = [a] /\
    filter is_report (stdout (trace launch w)) =
      match r with
      | inr res => ["Export complete! Result: " ++ result_repr res]
      | inl _ => []
      end.
Proof.
  by_shape launch w; intro L; in_cases L; injection L as <- <-;
    eexists; (split; [cbn; auto 10|]);
    unfold prelude, announce, load_arg; cbn [app export_calls load_args stdout filter];
    rewrite ?is_report_loaded, ?is_report_loading, ?is_report_not_found,
      ?is_report_downloading, ?is_report_complete;
    repeat split.
Qed.

(** C7, as amended. A run that gets to its end has printed three lines when
    the check found the checkpoint file (load intent, loaded model, export
    complete) and four when it did not (path status, download intent,
    loaded model, export complete). *)
Theorem lines_of_complete_run (launch : string) (w : World) :
  outcome launch w = inr tt ->
  exists found,
    In (EvExists model_path found) (trace launch w) /\
    length (stdout (trace launch w)) = if found then 3 else 4.
Proof.
  by_shape launch w; intro O; try discriminate O.
  - exists true. split; [cbn; auto|reflexivity].
  - exists false. split; [cbn; auto|reflexivity].
Qed.

(** C8. Nothing is caught.  When a call raises, be it [os.chdir], the
    import, [YOLO] or [model.export], that call is the last thing the run
    does and the run ends in the very exception it raised.  In particular
    after a load that raises there is no export call and no further
    print. *)
Theorem failure_ends_run (launch : string) (w : World)
    (ev : Event E) (e : Exn) :
  In ev (trace launch w) ->
  raised ev = Some e ->
  outcome launch w = inl e /\
  (exists pre, trace launch w = (pre ++ [ev])%list) /\
  (forall a r, ev = EvLoad a r -> export_calls (trace launch w) = []).
Proof.
  by_shape launch w; intros H R; in_cases H; subst ev;
    try discriminate R; injection R as ->;
    (split; [reflexivity|]);
    (split; [match goal with
             | |- exists pre, ?l = _ => exists (removelast l); reflexivity
             end|]);
    intros a r Ha; try discriminate Ha; reflexivity.
Qed.

(** Two runs that both find the checkpoint file and get the same answers
    from the library print the same lines, wherever they were launched and
    whatever else differs in the world. *)
Lemma found_runs_agree (l1 l2 : string) (w1 w2 : World) :
  In (EvExists model_path true) (trace l1 w1) ->
  In (EvExists model_path true) (trace l2 w2) ->
  answers (trace l1 w1) = answers (trace l2 w2) ->
  stdout (trace l1 w1) = stdout (trace l2 w2).
Proof.
  intros H1 H2.
  apply checked_runs in H1 as (r1 & -> & F1).
  apply checked_runs in H2 as (r2 & -> & F2).
  destruct F1, F2; cbn; intro A; try discriminate A;
    injection A; intros; congruence.
Qed.

Lemma found_run_starts (launch : string) (w : World) :
  In (EvExists model_path true) (trace launch w) ->
  load_args (trace launch w) = [model_path] /\
  firstn 1 (stdout (trace launch w)) = ["Loading model from: " ++ model_path].
Proof.
  intro H. apply checked_runs in H as (rest & -> & F).
  destruct F; split; reflexivity.
Qed.

(** C9. Run the script, then run it again in the world the first run left
    behind.  If both existence checks find the checkpoint file, both runs
    call [YOLO(model_path)] and nothing else, both start with the same
    ['Loading model from: <path>'] line, and if the library answers the
    second run as it answered the first, the two runs print the same
    lines.  The second run sees the first only through the world. *)
Theorem consecutive_runs_agree (launch1 launch2 : string) (w : World) :
  In (EvExists model_path true) (trace launch1 w) ->
  In (EvExists model_path true) (trace launch2 (world_after launch1 w)) ->
  load_args (trace launch1 w) = [model_path] /\
  load_args (trace launch2 (world_after launch1 w)) = [model_path] /\
  firstn 1 (stdout (trace launch1 w)) =
    firstn 1 (stdout (trace launch2 (world_after launch1 w))) /\
  (answers (trace launch1 w) =
     answers (trace launch2 (world_after launch1 w)) ->
   stdout (trace launch1 w) =
     stdout (trace launch2 (world_after launch1 w))).
Proof.
  intros H1 H2.
  destruct (found_run_starts _ _ H1) as [L1 P1].
  destruct (found_run_starts _ _ H2) as [L2 P2].
  repeat split; trivial; [congruence|].
  now apply found_runs_agree.
Qed.

Lemma relative_in_models_dir (launch name : string) :
  is_abs name = false ->
  resolve (resolve launch models_dir) name = models_dir ++ "/" ++ name.
Proof. intro R. unfold resolve at 1. rewrite R. reflexivity. Qed.

Lemma later_effects_in_models_dir (launch : string) (w : World) :
  exists r rest,
    log (fst (run_script launch w)) =
      stamp launch (EvChdir models_dir r) :: rest /\
    Forall (fun en =>
              at_cwd en = models_dir /\
              is_chdir (what en) = false /\
              forall name, is_abs name = false ->
                resolve (at_cwd en) name = models_dir ++ "/" ++ name)
           rest /\
    is_abs models_dir = true.
Proof.
  unfold_run.
  ask ext_chdir; [|ask ext_import];
    [..|match goal with
        | |- context [ext_exists ?p ?c ?x] => destruct (ext_exists p c x)
        end; cbn [negb cwd world log fst snd app];
        (ask ext_YOLO; [|ask ext_export])];
    do 2 eexists; (split; [reflexivity|]);
    (split; [|reflexivity]);
    repeat (constructor; [repeat split; apply relative_in_models_dir|]);
    constructor.
Qed.

(** As [ask], keeping what the capability answered. *)
Ltac ask_eq f :=
  match goal with
  | |- context [f ?a ?b ?c ?d] => destruct (f a b c d) as [? [?|?]] eqn:?
  | |- context [f ?a ?b ?c] => destruct (f a b c) as [? [?|?]] eqn:?
  | |- context [f ?a ?b] => destruct (f a b) as [? [?|?]] eqn:?
  end; cbn [cwd world log fst snd app map what].

(** With a library that writes in its working directory, a run that gets
    to its end leaves the checkpoint it loaded and the file it exported
    under the models directory, wherever it was launched. *)
Lemma files_land_in_models_dir (launch : string) (w : World)
    (has_file : World -> string -> bool) (artifact : Model -> string)
    (a : string) (m : Model) :
  WritesInCwd has_file artifact ->
  In (EvLoad a (inr m)) (trace launch w) ->
  outcome launch w = inr tt ->
  resolve models_dir a = model_path /\
  has_file (world_after launch w) (resolve models_dir a) = true /\
  has_file (world_after launch w) (resolve models_dir (artifact m)) = true.
Proof.
  intros [Hd He Hk]. unfold_run.
  ask_eq ext_chdir; [|ask_eq ext_import];
    [..|match goal with
        | |- context [ext_exists ?p ?c ?x] => destruct (ext_exists p c x)
        end; cbn [negb cwd world log fst snd app map what];
        (ask_eq ext_YOLO; [|ask_eq ext_export])];
    intros L O; try discriminate O;
    cbn [In] in L;
    repeat match type of L with
           | _ \/ _ => destruct L as [L|L]
           | False => contradiction
           end;
    try discriminate L; injection L as <- <-;
    change (resolve launch models_dir) with models_dir in *;
    (split; [reflexivity|]); split; eauto.
Qed.


(** ** Further properties of the script *)

(** X1. The line ['Export complete! Result: ...'] is a faithful mark of
    success: it is on standard output exactly when the run ends without an
    exception. *)
Theorem report_marks_success (launch : string) (w : World) :
  outcome launch w = inr tt <->
  existsb is_report (stdout (trace launch w)) = true.
Proof.
  by_shape launch w; unfold prelude, announce;
    cbn [app stdout existsb];
    rewrite ?is_report_loaded, ?is_report_loading, ?is_report_not_found,
      ?is_report_downloading, ?is_report_complete;
    cbn [orb]; split; intro H; try discriminate H; reflexivity.
Qed.

(** X2. The script raises nothing of its own.  A run that ends in an
    exception ends in the exception its last call raised; a run that ends
    normally has no raising call in it. *)
Theorem raises_only_what_a_call_raised (launch : string) (w : World) :
  match outcome launch w with
  | inl e =>
      exists pre ev,
        trace launch w = (pre ++ [ev])%list /\ raised ev = Some e /\
        Forall (fun ev' => raised ev' = None) pre
  | inr _ => Forall (fun ev => raised ev = None) (trace launch w)
  end.
Proof.
  by_shape launch w;
    try (match goal with
         | |- exists pre ev, ?l = _ /\ _ =>
             exists (removelast l), (last l (EvPrint ""))
         end;
         split; [reflexivity|]; split; [reflexivity|]);
    repeat constructor.
Qed.

(** X3. The calls come in one fixed order, each at most once: [os.chdir],
    the import, [os.path.exists], [YOLO], [model.export].  A run makes an
    initial part of this list, never empty, and nothing else. *)
Theorem calls_in_order (launch : string) (w : World) :
  exists n,
    n <> 0 /\
    calls (trace launch w) =
      firstn n [KChdir; KImport; KExists; KLoad; KExport].
Proof.
  by_shape launch w;
    first [ exists 1; split; [discriminate|reflexivity]
          | exists 2; split; [discriminate|reflexivity]
          | exists 4; split; [discriminate|reflexivity]
          | exists 5; split; [discriminate|reflexivity] ].
Qed.

(** X4. When [os.chdir] or the import raises, the run has printed nothing,
    has not looked for the checkpoint and has neither loaded nor exported
    anything. *)
Theorem prelude_failure_is_silent (launch : string) (w : World)
    (ev : Event E) (e : Exn) :
  In ev (trace launch w) ->
  (exists d, ev = EvChdir d (inl e)) \/ ev = EvImport (inl e) ->
  stdout (trace launch w) = [] /\
  load_args (trace launch w) = [] /\
  export_calls (trace launch w) = [] /\
  forall p b, ~ In (EvExists p b) (trace launch w).
Proof.
  by_shape launch w; intros H [[d ->]| ->]; in_cases H;
    repeat split; intros p b H'; in_cases H'.
Qed.

(** X5. Where the script is launched does not matter: if [os.chdir] to the
    models directory does the same from two launch directories, the two
    runs make the same calls, get the same answers, print the same lines,
    end the same way and leave the same world. *)
Theorem launch_directory_is_irrelevant (l1 l2 : string) (w : World) :
  ext_chdir models_dir l1 w = ext_chdir models_dir l2 w ->
  trace l1 w = trace l2 w /\
  outcome l1 w = outcome l2 w /\
  world_after l1 w = world_after l2 w.
Proof.
  intro H. unfold_run. rewrite H.
  ask ext_chdir; [repeat split|].
  change (resolve l1 models_dir) with models_dir.
  change (resolve l2 models_dir) with models_dir.
  ask ext_import; [repeat split|].
  match goal with
  | |- context [ext_exists ?p ?c ?x] => destruct (ext_exists p c x)
  end; cbn [negb cwd world log fst snd app];
    (ask ext_YOLO; [repeat split|]);
    (ask ext_export; repeat split).
Qed.

(** X6. Whichever branch is taken, what [YOLO] is asked to load is the
    file the existence check looked for: its argument, read in the working
    directory of the call, is [model_path]. *)
Theorem load_target_is_checked_path (launch : string) (w : World)
    (en : Entry E) (a : string) (r : Exn + Model) :
  In en (log (fst (run_script launch w))) ->
  what en = EvLoad a r ->
  resolve (at_cwd en) a = model_path.
Proof.
  unfold_run.
  ask ext_chdir; [|ask ext_import];
    [..|match goal with
        | |- context [ext_exists ?p ?c ?x] => destruct (ext_exists p c x)
        end; cbn [negb cwd world log fst snd app];
        (ask ext_YOLO; [|ask ext_export])];
    intros H W; cbn [In] in H;
    repeat match type of H with
           | _ \/ _ => destruct H as [<-|H]
           | False => contradiction
           end;
    cbn [what] in W; try discriminate W;
    injection W as <- _; reflexivity.
Qed.

(** X7. What a run prints and what it loads depend on the world only
    through the answer of the existence check and the answers of the
    library: two runs that agree on these, in any two worlds and from any
    two directories, print the same lines and make the same [YOLO] call. *)
Theorem output_follows_answers (l1 l2 : string) (w1 w2 : World)
    (found : bool) :
  In (EvExists model_path found) (trace l1 w1) ->
  In (EvExists model_path found) (trace l2 w2) ->
  answers (trace l1 w1) = answers (trace l2 w2) ->
  stdout (trace l1 w1) = stdout (trace l2 w2) /\
  load_args (trace l1 w1) = load_args (trace l2 w2).
Proof.
  intros H1 H2.
  apply checked_runs in H1 as (r1 & -> & F1).
  apply checked_runs in H2 as (r2 & -> & F2).
  destruct found, F1, F2; cbn; intro A; try discriminate A;
    injection A; intros; split; congruence.
Qed.

(** X8. The first line of output tells which branch was taken: it is
    ['Loading model from: <path>'] exactly when the check found the file
    and ['Model not found at <path>'] exactly when it did not. *)
Theorem first_line_tells_branch (launch : string) (w : World)
    (found : bool) :
  In (EvExists model_path found) (trace launch w) <->
  hd_error (stdout (trace launch w)) =
    Some (if found then "Loading model from: " ++ model_path
          else "Model not found at " ++ model_path).
Proof.
  by_shape launch w; destruct found;
    (split; [intro H; in_cases H; try reflexivity
            |unfold prelude, announce; cbn [app stdout hd_error append];
             intro H; try discriminate H; cbn; auto]).
Qed.


End Properties.

(** * The script at work on the sample disks *)

(** Find an effect in a computed log. *)
Ltac pick := vm_compute; repeat (first [left; reflexivity | right]).

Example ready_run_output :
  stdout (@trace disk_env "/tmp" disk_ready) =
    ["Loading model from: " ++ model_path;
     "Loaded model: <class 'ultralytics.models.yolo.model.YOLO'>";
     "Export complete! Result: FastSAM-x.onnx"].
Proof. reflexivity. Qed.

Example fresh_run_output :
  stdout (@trace disk_env "/tmp" disk_fresh) =
    ["Model not found at " ++ model_path;
     "Downloading FastSAM-x.pt...";
     "Loaded model: <class 'ultralytics.models.yolo.model.YOLO'>";
     "Export complete! Result: FastSAM-x.onnx"].
Proof. reflexivity. Qed.

Example offline_run_stops_at_load :
  @trace disk_env "/tmp" disk_offline =
    [EvChdir models_dir (inr tt); EvImport (inr tt);
     EvExists model_path false;
     EvPrint ("Model not found at " ++ model_path);
     EvPrint "Downloading FastSAM-x.pt...";
     @EvLoad disk_env "FastSAM-x.pt" (inl "ConnectionError")] /\
  @outcome disk_env "/tmp" disk_offline = inl "ConnectionError".
Proof. split; reflexivity. Qed.

Example readonly_run_stops_at_export :
  stdout (@trace disk_env "/tmp" disk_readonly) =
    ["Loading model from: " ++ model_path;
     "Loaded model: <class 'ultralytics.models.yolo.model.YOLO'>"] /\
  @outcome disk_env "/tmp" disk_readonly = inl "PermissionError".
Proof. split; reflexivity. Qed.

Example elsewhere_run_stops_at_chdir :
  @trace disk_env "/home/ci" disk_elsewhere =
    [@EvChdir disk_env models_dir (inl "FileNotFoundError")] /\
  @outcome disk_env "/home/ci" disk_elsewhere = inl "FileNotFoundError".
Proof. split; reflexivity. Qed.

(** The name given to [YOLO] on the download branch, read in the models
    directory, is the very path the existence check looks at: here the
    download of a first run is what the second run finds. *)
Example name_resolves_to_path : resolve models_dir "FastSAM-x.pt" = model_path.
Proof. reflexivity. Qed.

Example download_then_found :
  files (@world_after disk_env "/tmp" disk_fresh) =
    [models_dir ++ "/FastSAM-x.onnx"; model_path] /\
  load_args (@trace disk_env "/tmp" disk_fresh) = ["FastSAM-x.pt"] /\
  load_args (@trace disk_env "/var"
               (@world_after disk_env "/tmp" disk_fresh)) = [model_path].
Proof. repeat split. Qed.

(** ** The claims on the sample disks *)




Lemma present_diagnostics_witness :
  exists pre r post,
    @trace disk_env "/tmp" disk_ready =
      (pre ++ @EvExport disk_env model_path export_kwargs r :: post)%list /\
    export_calls pre = [] /\
    stdout pre = ["Loading model from: " ++ model_path;
                  "Loaded model: " ++ yolo_class].
Proof.
  apply (@present_diagnostics disk_env "/tmp" disk_ready model_path model_path);
    pick.
Defined.

Lemma absent_diagnostics_witness :
  exists pre r post,
    @trace disk_env "/tmp" disk_fresh =
      (pre ++ @EvLoad disk_env "FastSAM-x.pt" r :: post)%list /\
    load_args pre = [] /\
    stdout pre = ["Model not found at " ++ model_path;
                  "Downloading FastSAM-x.pt..."] /\
    forall h, r = inr h ->
      exists post', post = EvPrint ("Loaded model: " ++ yolo_class) :: post'.
Proof. apply (@absent_diagnostics disk_env "/tmp" disk_fresh). pick. Defined.

Lemma one_export_one_report_witness :
  exists r,
    In (@EvExport disk_env model_path export_kwargs r)
       (@trace disk_env "/tmp" disk_fresh) /\
    export_calls (@trace disk_env "/tmp" disk_fresh) =
      [(model_path, export_kwargs)] /\
    load_args (@trace disk_env "/tmp" disk_fresh) = ["FastSAM-x.pt"] /\
    filter is_report (stdout (@trace disk_env "/tmp" disk_fresh)) =
      match r with
      | inr res => ["Export complete! Result: " ++ res]
      | inl _ => []
      end.
Proof.
  apply (@one_export_one_report disk_env "/tmp" disk_fresh
           "FastSAM-x.pt" model_path).
  pick.
Defined.

(** C7 as the specification has it, four lines on either branch, fails on
    the run that finds the checkpoint file: it gets to its end and has
    printed three lines. *)
Lemma four_lines_refuted :
  In (EvExists model_path true) (@trace disk_env "/tmp" disk_ready) /\
  @outcome disk_env "/tmp" disk_ready = inr tt /\
  length (stdout (@trace disk_env "/tmp" disk_ready)) = 3 /\
  length (stdout (@trace disk_env "/tmp" disk_ready)) <> 4.
Proof.
  split; [pick|]. split; [reflexivity|]. split; [reflexivity|].
  vm_compute. discriminate.
Qed.

Lemma lines_of_complete_run_witness :
  exists found,
    In (EvExists model_path found) (@trace disk_env "/tmp" disk_fresh) /\
    length (stdout (@trace disk_env "/tmp" disk_fresh)) =
      if found then 3 else 4.
Proof.
  apply (@lines_of_complete_run disk_env "/tmp" disk_fresh). reflexivity.
Defined.

Lemma failure_ends_run_witness :
  @outcome disk_env "/tmp" disk_offline = inl "ConnectionError" /\
  (exists pre,
     @trace disk_env "/tmp" disk_offline =
       (pre ++ [@EvLoad disk_env "FastSAM-x.pt" (inl "ConnectionError")])%list) /\
  (forall a r,
     @EvLoad disk_env "FastSAM-x.pt" (inl "ConnectionError") = EvLoad a r ->
     export_calls (@trace disk_env "/tmp" disk_offline) = []).
Proof.
  apply (@failure_ends_run disk_env "/tmp" disk_offline
           (@EvLoad disk_env "FastSAM-x.pt" (inl "ConnectionError"))
           "ConnectionError");
    [pick|reflexivity].
Defined.

Lemma consecutive_runs_agree_witness :
  let w' := @world_after disk_env "/tmp" disk_ready in
  load_args (@trace disk_env "/tmp" disk_ready) = [model_path] /\
  load_args (@trace disk_env "/var" w') = [model_path] /\
  stdout (@trace disk_env "/tmp" disk_ready) =
    stdout (@trace disk_env "/var" w').
Proof.
  destruct (@consecutive_runs_agree disk_env "/tmp" "/var" disk_ready)
    as (L1 & L2 & _ & S); [pick|pick|].
  split; [exact L1|]. split; [exact L2|]. apply S. reflexivity.
Defined.

(** ** The further properties on the sample disks *)

Lemma prelude_failure_is_silent_witness :
  stdout (@trace disk_env "/home/ci" disk_elsewhere) = [] /\
  load_args (@trace disk_env "/home/ci" disk_elsewhere) = [] /\
  export_calls (@trace disk_env "/home/ci" disk_elsewhere) = [] /\
  forall p b, ~ In (EvExists p b) (@trace disk_env "/home/ci" disk_elsewhere).
Proof.
  apply (@prelude_failure_is_silent disk_env "/home/ci" disk_elsewhere
           (@EvChdir disk_env models_dir (inl "FileNotFoundError"))
           "FileNotFoundError");
    [pick|left; exists models_dir; reflexivity].
Defined.

Lemma launch_directory_is_irrelevant_witness :
  @trace disk_env "/tmp" disk_fresh = @trace disk_env "/var" disk_fresh /\
  @outcome disk_env "/tmp" disk_fresh = @outcome disk_env "/var" disk_fresh /\
  @world_after disk_env "/tmp" disk_fresh =
    @world_after disk_env "/var" disk_fresh.
Proof.
  apply (@launch_directory_is_irrelevant disk_env "/tmp" "/var" disk_fresh).
  reflexivity.
Defined.

Lemma load_target_is_checked_path_witness :
  resolve models_dir "FastSAM-x.pt" = model_path.
Proof.
  apply (@load_target_is_checked_path disk_env "/tmp" disk_fresh
           (stamp models_dir (@EvLoad disk_env "FastSAM-x.pt" (inr model_path)))
           "FastSAM-x.pt" (inr model_path));
    [pick|reflexivity].
Defined.

Lemma output_follows_answers_witness :
  stdout (@trace disk_env "/tmp" disk_fresh) =
    stdout (@trace disk_env "/var" disk_fresh) /\
  load_args (@trace disk_env "/tmp" disk_fresh) =
    load_args (@trace disk_env "/var" disk_fresh).
Proof.
  apply (@output_follows_answers disk_env "/tmp" "/var" disk_fresh disk_fresh
           false); [pick|pick|reflexivity].
Defined.


(** [disk_env] writes in its working directory. *)
Lemma disk_writes_in_cwd : @WritesInCwd disk_env on_disk onnx_name.
Proof.
  split; cbn [ext_YOLO ext_export disk_env].
  - intros name cwd w w' m. unfold on_disk.
    destruct (mem (resolve cwd name) (files w)) eqn:M.
    + intro H. injection H as <- _. exact M.
    + destruct (online w); intro H; [|discriminate H].
      injection H as <- _. cbn. rewrite String.eqb_refl. reflexivity.
  - intros m cfg cwd w w' r. unfold on_disk.
    destruct (writable w); intro H; [|discriminate H].
    injection H as <- _. cbn. rewrite String.eqb_refl. reflexivity.
  - intros m cfg cwd w w' r p. unfold on_disk.
    destruct (writable w); intros H F; [|discriminate H].
    injection H as <- _. unfold mem in *. cbn. rewrite F. apply orb_true_r.
Qed.


Example nothing_written_where_launched :
  on_disk (@world_after disk_env "/tmp" disk_fresh) "/tmp/FastSAM-x.pt" = false /\
  on_disk (@world_after disk_env "/tmp" disk_fresh) "/tmp/FastSAM-x.onnx" = false.
Proof. split; reflexivity. Qed.
